(** * Trace page of jaeger-ui: view-range controller, sub-trace selection,
    trace representations and the ReferenceLink component.

    Shallow embedding of
    [packages/jaeger-ui/src/components/TracePage/url/ReferenceLink.tsx]
    (the [ReferenceLink] component and the [TracePageImpl] class).

    Numbers of the view range are JavaScript numbers, IEEE-754 binary64
    values.  The state-level model computes with exact rationals [Q]: the
    arithmetic the code writes, without rounding; module [Binary64] embeds
    the arithmetic of [_adjustViewRange] once more in Rocq's primitive
    binary64 floats, with the rounding of every operation, for the
    properties that rounding decides.  React's [setState] is modelled
    as a pure update of the state record; side effects (tracking calls,
    console output, navigation) are returned as a list of effects. *)

From Stdlib Require Import QArith Qminmax Lqa Bool PrimFloat.
From stdpp Require Import base gmap strings list.

(** Decimal literals of the source, such as [0.01], denote their nearest
    binary64 value, in JavaScript as in Rocq's float literals. *)
Set Warnings "-inexact-float".

Open Scope Q_scope.

(* ------------------------------------------------------------------ *)
(** ** JavaScript values stored in the view-range [time] object *)

(** Values that the fields of [IViewRangeTime] may hold: the committed
    range [current] (a pair), drag bounds such as [cursor], [shiftStart],
    [shiftEnd] (numbers, possibly [null]/[undefined]) and [reframe]
    (an [{anchor, shift}] object). *)
Inductive jsval :=
| JNum (q : Q)
| JPair (a b : Q)
| JReframe (anchor shift : Q)
| JNull
| JUndefined.

(** The [time] object of the view range, a JS object keyed by field name. *)
Abbreviation time_obj := (gmap string jsval).

(** [IViewRange = { time: IViewRangeTime }] *)
Record IViewRange := mkViewRange { time : time_obj }.

(* ------------------------------------------------------------------ *)
(** ** Constants (lines 165-179) *)

Definition VIEW_MIN_RANGE : Q := 1 # 100.
Definition VIEW_CHANGE_BASE : Q := 5 # 1000.
Definition VIEW_CHANGE_FAST : Q := 5 # 100.

Inductive shortcut :=
| panLeft | panLeftFast | panRight | panRightFast
| zoomIn | zoomInFast | zoomOut | zoomOutFast.

(** [shortcutConfig : { [name]: [startChange, endChange] }] *)
Definition shortcutConfig (g : shortcut) : Q * Q :=
  match g with
  | panLeft => (- VIEW_CHANGE_BASE, - VIEW_CHANGE_BASE)
  | panLeftFast => (- VIEW_CHANGE_FAST, - VIEW_CHANGE_FAST)
  | panRight => (VIEW_CHANGE_BASE, VIEW_CHANGE_BASE)
  | panRightFast => (VIEW_CHANGE_FAST, VIEW_CHANGE_FAST)
  | zoomIn => (VIEW_CHANGE_BASE, - VIEW_CHANGE_BASE)
  | zoomInFast => (VIEW_CHANGE_FAST, - VIEW_CHANGE_FAST)
  | zoomOut => (- VIEW_CHANGE_BASE, VIEW_CHANGE_BASE)
  | zoomOutFast => (- VIEW_CHANGE_FAST, VIEW_CHANGE_FAST)
  end.

(** JavaScript [a < b] on numbers. *)
Definition Qltb (a b : Q) : bool := negb (Qle_bool b a).

(** lodash [_clamp(number, lower, upper)] (baseClamp):
    [number = number <= upper ? number : upper;
     number = number >= lower ? number : lower]. *)
Definition _clamp (number lower upper : Q) : Q :=
  let n := if Qle_bool number upper then number else upper in
  if Qle_bool lower n then n else lower.

(** Lines 336-349 of [_adjustViewRange]: the new [(start, end)] from the
    current [(viewStart, viewEnd)] and the two changes. *)
Definition adjust_range (cur : Q * Q) (startChange endChange : Q) : Q * Q :=
  let '(viewStart, viewEnd) := cur in
  let start := _clamp (viewStart + startChange) 0 (99 # 100) in
  let end_ := _clamp (viewEnd + endChange) (1 # 100) 1 in
  if Qltb (end_ - start) VIEW_MIN_RANGE then
    if Qltb startChange 0 && Qltb endChange 0 then (start, start + VIEW_MIN_RANGE)
    else if Qltb 0 startChange && Qltb 0 endChange then (start, start + VIEW_MIN_RANGE)
    else
      let center := viewStart + (viewEnd - viewStart) / 2 in
      (center - VIEW_MIN_RANGE / 2, center + VIEW_MIN_RANGE / 2)
  else (start, end_).



(* ------------------------------------------------------------------ *)
(** ** The view-range arithmetic in IEEE binary64 *)

(** JavaScript's [+], [-], [/] and [<] on numbers are the binary64
    operations of Rocq's primitive floats (round to nearest, ties to
    even).  Lines 165-179 and 336-349 once more, in that arithmetic. *)
Module Binary64.

Local Open Scope float_scope.

Definition VIEW_MIN_RANGE : float := 0.01.
Definition VIEW_CHANGE_BASE : float := 0.005.
Definition VIEW_CHANGE_FAST : float := 0.05.

Definition shortcutConfig (g : shortcut) : float * float :=
  match g with
  | panLeft => (- VIEW_CHANGE_BASE, - VIEW_CHANGE_BASE)
  | panLeftFast => (- VIEW_CHANGE_FAST, - VIEW_CHANGE_FAST)
  | panRight => (VIEW_CHANGE_BASE, VIEW_CHANGE_BASE)
  | panRightFast => (VIEW_CHANGE_FAST, VIEW_CHANGE_FAST)
  | zoomIn => (VIEW_CHANGE_BASE, - VIEW_CHANGE_BASE)
  | zoomInFast => (VIEW_CHANGE_FAST, - VIEW_CHANGE_FAST)
  | zoomOut => (- VIEW_CHANGE_BASE, VIEW_CHANGE_BASE)
  | zoomOutFast => (- VIEW_CHANGE_FAST, VIEW_CHANGE_FAST)
  end.

(** lodash [_clamp(number, lower, upper)]: [baseClamp] leaves [NaN] as it
    is ([number === number] fails), otherwise
    [number = number <= upper ? number : upper;
     number = number >= lower ? number : lower]. *)
Definition _clamp (number lower upper : float) : float :=
  if PrimFloat.eqb number number then
    let n := if PrimFloat.leb number upper then number else upper in
    if PrimFloat.leb lower n then n else lower
  else number.

(** Lines 336-349 of [_adjustViewRange]. *)
Definition adjust_range (cur : float * float) (startChange endChange : float) : float * float :=
  let '(viewStart, viewEnd) := cur in
  let start := _clamp (viewStart + startChange) 0 0.99 in
  let end_ := _clamp (viewEnd + endChange) 0.01 1 in
  if PrimFloat.ltb (end_ - start) VIEW_MIN_RANGE then
    if (PrimFloat.ltb startChange 0 && PrimFloat.ltb endChange 0)%bool
    then (start, start + VIEW_MIN_RANGE)
    else if (PrimFloat.ltb 0 startChange && PrimFloat.ltb 0 endChange)%bool
    then (start, start + VIEW_MIN_RANGE)
    else
      let center := viewStart + (viewEnd - viewStart) / 2 in
      (center - VIEW_MIN_RANGE / 2, center + VIEW_MIN_RANGE / 2)
  else (start, end_).

(** The committed range after [n] presses of a gesture, from [cur]: each
    press adjusts the current range, and [updateViewRangeTime] (lines
    378-385) stores the result as the new [current] unchanged. *)
Fixpoint gesture_iter (n : nat) (g : shortcut) (cur : float * float) : float * float :=
  match n with
  | O => cur
  | S n' => adjust_range (gesture_iter n' g cur) (fst (shortcutConfig g)) (snd (shortcutConfig g))
  end.

End Binary64.

(* ------------------------------------------------------------------ *)
(** ** Page state and props *)

Section TracePage.

(** The trace data structure is opaque to this component: it is only
    passed to [createSubtrace], to representation transforms and to the
    views. *)
Variable Trace : Type.

Inductive ETraceViewType :=
| TraceTimelineViewer | TraceGraph | TraceStatistics | TraceSpansView
| TraceFlamegraph.

(** [type TState] (lines 154-162). *)
Record TState := mkTState {
  headerHeight : option Q;
  slimView : bool;
  viewType : ETraceViewType;
  viewRange : IViewRange;
  currentRepresentation : string;
  transformedTrace : option Trace;
  subtrace : option Trace
}.

(** [fetchedState] constants. *)
Inductive fetched_state := DONE | ERROR | LOADING.

(** [trace.state === s]. *)
Definition state_is (st : option fetched_state) (s : fetched_state) : bool :=
  match st, s with
  | Some DONE, DONE | Some ERROR, ERROR | Some LOADING, LOADING => true
  | _, _ => false
  end.

(** [FetchedTrace]: [{ data?, error?, id, state? }]. *)
Record FetchedTrace := mkFetchedTrace {
  ft_data : option Trace;
  ft_error : option string;
  ft_state : option fetched_state
}.

(** The props read by the functions below: [trace] and [params.spanId]. *)
Record TProps := mkTProps {
  p_trace : option FetchedTrace;
  p_spanId : option string
}.

(** [TraceRepresentation] of [types/config.tsx]. *)
Record TraceRepresentation := mkTraceRepresentation {
  rep_name : string;
  rep_transformFunction : string
}.

(** Observable side effects of the handlers. *)
Inductive effect :=
| TrackRange (src : string) (newRange : Q * Q) (oldRange : option jsval)
| ConsoleError (msg : string) (err : string).

(** JavaScript truthiness of an optional string ([undefined] and [""] are
    falsy). *)
Definition truthy_str (s : option string) : bool :=
  match s with
  | Some x => negb (bool_decide (x = ""%string))
  | None => false
  end.

(** setState helpers (shallow merge of one top-level key). *)
Definition set_viewRange (st : TState) (v : IViewRange) : TState :=
  mkTState (headerHeight st) (slimView st) (viewType st) v
    (currentRepresentation st) (transformedTrace st) (subtrace st).

Definition set_subtrace (st : TState) (s : option Trace) : TState :=
  mkTState (headerHeight st) (slimView st) (viewType st) (viewRange st)
    (currentRepresentation st) (transformedTrace st) s.

Definition set_representation (st : TState) (name : string) (t : option Trace)
  : TState :=
  mkTState (headerHeight st) (slimView st) (viewType st) (viewRange st)
    name t (subtrace st).

(** The committed range [state.viewRange.time.current]. *)
Definition view_current (st : TState) : option jsval :=
  time (viewRange st) !! "current"%string.

(** [updateViewRangeTime(start, end, trackSrc?)] (lines 378-385). *)
Definition updateViewRangeTime (st : TState) (start end_ : Q)
    (trackSrc : option string) : TState * list effect :=
  let eff :=
    match trackSrc with
    | Some src =>
        if truthy_str trackSrc then [TrackRange src (start, end_) (view_current st)]
        else []
    | None => []
    end in
  let time' : time_obj := {[ "current"%string := JPair start end_ ]} in
  (set_viewRange st (mkViewRange time'), eff).

(** [_adjustViewRange(startChange, endChange, trackSrc)] (lines 335-351).
    Destructuring [current] throws unless it is a pair: [None]. *)
Definition _adjustViewRange (st : TState) (startChange endChange : Q)
    (trackSrc : string) : option (TState * list effect) :=
  match view_current st with
  | Some (JPair viewStart viewEnd) =>
      let '(start, end_) := adjust_range (viewStart, viewEnd) startChange endChange in
      Some (updateViewRangeTime st start end_ (Some trackSrc))
  | _ => None
  end.

(** [updateNextViewRangeTime(update)] (lines 387-392):
    [time = { ...state.viewRange.time, ...update }]; stdpp's union is
    left-biased, so the update's keys win. *)
Definition updateNextViewRangeTime (st : TState) (update : time_obj) : TState :=
  set_viewRange st (mkViewRange (update ∪ time (viewRange st))).

(** [createSubtrace] of [model/trace-subtree] (imported, not part of this
    file): its result is stored as is. *)
Variable createSubtrace : Trace -> string -> option Trace.

(** [createSubtraceIfNeeded()] (lines 307-317). *)
Definition createSubtraceIfNeeded (st : TState) (props : TProps) : TState :=
  match p_trace props with
  | Some t =>
      match ft_data t with
      | Some d =>
          match p_spanId props with
          | Some spanId =>
              if truthy_str (Some spanId) then set_subtrace st (createSubtrace d spanId)
              else set_subtrace st None
          | None => set_subtrace st None
          end
      | None => set_subtrace st None
      end
  | None => set_subtrace st None
  end.

(** Outcome of [new Function('return ' + src)()(data)]: a returned value
    or a thrown error (at construction or at application). *)
Inductive transform_outcome :=
| Returns (t : option Trace)
| Throws (err : string).

(** The JavaScript evaluation of a representation's source text applied to
    the trace data (runtime [new Function], external to the component). *)
Variable run_transform : string -> Trace -> transform_outcome.

(** [setTraceRepresentation(representation)] (lines 407-423). *)
Definition setTraceRepresentation (st : TState) (props : TProps)
    (representation : TraceRepresentation) : TState * list effect :=
  match p_trace props with
  | Some t =>
      match ft_data t with
      | Some d =>
          match run_transform (rep_transformFunction representation) d with
          | Returns transformed =>
              (set_representation st (rep_name representation) transformed, [])
          | Throws error =>
              (st, [ConsoleError "Error applying trace representation:"%string error])
          end
      | None => (st, [])
      end
  | None => (st, [])
  end.

(** What [render()] shows (lines 465-590): the loading indicator, the error
    message, or the page with the selected trace [data]. *)
Inductive render_result :=
| RLoading
| RError (msg : string)
| RView (data : Trace).

(** JavaScript [a || b] on values that are an object or [null]. *)
Definition js_or (a b : option Trace) : option Trace :=
  match a with Some _ => a | None => b end.

(** [trace.error || 'Unknown error']: an absent or empty message is
    falsy. *)
Definition error_message (e : option string) : string :=
  match e with
  | Some m => if bool_decide (m = ""%string) then "Unknown error"%string else m
  | None => "Unknown error"%string
  end.

Definition render (st : TState) (props : TProps) : render_result :=
  match p_trace props with
  | None => RLoading
  | Some t =>
      if state_is (ft_state t) LOADING then RLoading
      else
        let data := js_or (subtrace st) (js_or (transformedTrace st) (ft_data t)) in
        match data with
        | Some d =>
            if state_is (ft_state t) ERROR
            then RError (error_message (ft_error t))
            else RView d
        | None => RError (error_message (ft_error t))
        end
  end.

End TracePage.

Arguments mkTState {Trace}.
Arguments headerHeight {Trace}. Arguments slimView {Trace}.
Arguments viewType {Trace}. Arguments viewRange {Trace}.
Arguments currentRepresentation {Trace}. Arguments transformedTrace {Trace}.
Arguments subtrace {Trace}.
Arguments mkFetchedTrace {Trace}. Arguments ft_data {Trace}.
Arguments ft_error {Trace}. Arguments ft_state {Trace}.
Arguments mkTProps {Trace}. Arguments p_trace {Trace}. Arguments p_spanId {Trace}.
Arguments set_viewRange {Trace}. Arguments set_subtrace {Trace}.
Arguments set_representation {Trace}. Arguments view_current {Trace}.
Arguments updateViewRangeTime {Trace}. Arguments _adjustViewRange {Trace}.
Arguments updateNextViewRangeTime {Trace}.
Arguments createSubtraceIfNeeded {Trace}.
Arguments Returns {Trace}. Arguments Throws {Trace}.
Arguments setTraceRepresentation {Trace}.
Arguments RLoading {Trace}. Arguments RError {Trace}. Arguments RView {Trace}.
Arguments js_or {Trace}. Arguments render {Trace}.

(** [n] successive calls of the keyboard handler [adjViewRange(a, b)]
    (i.e. [_adjustViewRange(a, b, 'kbd')]), threading the state; [None]
    if a call throws. *)
Fixpoint adjust_times {Trace : Type} (n : nat) (startChange endChange : Q)
    (st : TState Trace) : option (TState Trace) :=
  match n with
  | O => Some st
  | S n' =>
      match adjust_times n' startChange endChange st with
      | Some st' => option_map fst (_adjustViewRange st' startChange endChange "kbd"%string)
      | None => None
      end
  end.

(** The state built by the constructor (lines 210-222), for a given
    [slimView] flag and default representation name. *)
Definition constructor_state {Trace : Type} (slim : bool) (defaultRepresentation : string)
  : TState Trace :=
  mkTState None slim TraceTimelineViewer
    (mkViewRange {[ "current"%string := JPair 0 1 ]})
    defaultRepresentation None None.

(* ------------------------------------------------------------------ *)
(** ** The [ReferenceLink] component (lines 27-57) *)

Section ReferenceLinkModel.

(** Span objects and React children are opaque to the component. *)
Variable Span : Type.
Variable ReactNode : Type.
(** [getUrl] of the [url] module (external). *)
Variable getUrl : string -> string -> string.

(** [SpanReference]: [{ span?, spanID, traceID, ... }]. *)
Record SpanReference := mkSpanReference {
  ref_span : option Span;
  ref_spanID : string;
  ref_traceID : string
}.

(** Effects a click handler performs when the anchor is clicked. *)
Inductive ui_effect :=
| PreventDefault
| FocusSpan (spanID : string)
| CallerOnClick (tag : nat).

(** Function values passed as attributes: a caller-supplied [onClick]
    (identified by a tag) or the arrow function of line 34. *)
Inductive handler :=
| HCaller (tag : nat)
| HReferenceClick (spanID : string).

(** Calling a handler with the click event. *)
Definition run_handler (h : handler) : list ui_effect :=
  match h with
  | HCaller n => [CallerOnClick n]
  | HReferenceClick id => [PreventDefault; FocusSpan id]
  end.

(** Attribute values of the rendered element. *)
Inductive attrval :=
| AStr (s : option string)
| AHandler (h : handler).

(** [ReferenceLinkProps]; [focusSpan] is modelled by the [FocusSpan]
    effect. *)
Record ReferenceLinkProps := mkReferenceLinkProps {
  reference : SpanReference;
  children : ReactNode;
  className : option string;
  onClick : option handler
}.

(** An [<a>] element: its attributes in JSX order (a later attribute
    overrides an earlier one of the same name) and its children. *)
Record anchor := mkAnchor {
  a_attrs : list (string * attrval);
  a_children : ReactNode
}.

(** The value of attribute [k]: the last binding in JSX order. *)
Definition attr_get (attrs : list (string * attrval)) (k : string) : option attrval :=
  foldl (fun acc '(k', v) => if bool_decide (k' = k) then Some v else acc) None attrs.

(** [delete obj[k]] on the rest object. *)
Definition delete_key (k : string) (obj : list (string * attrval)) :=
  filter (fun kv => kv.1 <> k) obj.

(** [const { reference, children, className, focusSpan, ...otherProps } = props]:
    the rest object holds the only remaining declared prop, [onClick]. *)
Definition rest_props (props : ReferenceLinkProps) : list (string * attrval) :=
  match onClick props with
  | Some h => [("onClick"%string, AHandler h)]
  | None => []
  end.

Definition ReferenceLink (props : ReferenceLinkProps) : anchor :=
  let reference := reference props in
  let otherProps := delete_key "onClick"%string (rest_props props) in
  match ref_span reference with
  | Some _ =>
      mkAnchor
        ([("role"%string, AStr (Some "button"%string));
          ("onClick"%string, AHandler (HReferenceClick (ref_spanID reference)));
          ("className"%string, AStr (className props))] ++ otherProps)
        (children props)
  | None =>
      mkAnchor
        ([("href"%string, AStr (Some (getUrl (ref_traceID reference) (ref_spanID reference))));
          ("target"%string, AStr (Some "_blank"%string));
          ("rel"%string, AStr (Some "noopener noreferrer"%string));
          ("className"%string, AStr (className props))] ++ otherProps)
        (children props)
  end.

End ReferenceLinkModel.

Arguments mkSpanReference {Span}. Arguments ref_span {Span}.
Arguments ref_spanID {Span}. Arguments ref_traceID {Span}.
Arguments mkReferenceLinkProps {Span ReactNode}.
Arguments reference {Span ReactNode}. Arguments children {Span ReactNode}.
Arguments className {Span ReactNode}. Arguments onClick {Span ReactNode}.
Arguments mkAnchor {ReactNode}. Arguments a_attrs {ReactNode}.
Arguments a_children {ReactNode}.
Arguments rest_props {Span ReactNode}.
Arguments ReferenceLink {Span ReactNode}.

(* ------------------------------------------------------------------ *)
(** ** The rest of [TracePageImpl]: lifecycle and handlers *)

(** [String.prototype.toLowerCase] on identifiers, which are ASCII
    strings here (trace ids are hexadecimal): [A-Z] become [a-z]. *)
Definition lower_ascii (c : Ascii.ascii) : Ascii.ascii :=
  let n := Ascii.nat_of_ascii c in
  if (65 <=? n)%nat && (n <=? 90)%nat then Ascii.ascii_of_nat (n + 32) else c.

Fixpoint toLowerCase (s : string) : string :=
  match s with
  | EmptyString => EmptyString
  | String c s' => String (lower_ascii c) (toLowerCase s')
  end.

Definition view_eqb (a b : ETraceViewType) : bool :=
  match a, b with
  | TraceTimelineViewer, TraceTimelineViewer | TraceGraph, TraceGraph
  | TraceStatistics, TraceStatistics | TraceSpansView, TraceSpansView
  | TraceFlamegraph, TraceFlamegraph => true
  | _, _ => false
  end.

(** JavaScript truthiness of [number | null]: [null] and [0] are falsy. *)
Definition truthy_num (x : option Q) : bool :=
  match x with Some q => negb (Qeq_bool q 0) | None => false end.

(** The constructor's [defaultRepresentation] (lines 206-208). *)
Definition defaultRepresentation (traceRepresentations : option (list TraceRepresentation))
  : string :=
  match traceRepresentations with
  | Some (r :: _) => rep_name r
  | _ => "Original"%string
  end.

Section PageLifecycle.

Variable Trace : Type.
(** Type of the graph model computed by [calculateTraceDagEV] (external). *)
Variable TEv : Type.
Variable calculateTraceDagEV : Trace -> TEv.
Variable createSubtrace : Trace -> string -> option Trace.
Variable run_transform : string -> Trace -> transform_outcome Trace.
(** Reference equality [===] of trace data objects. *)
Variable same_data : Trace -> Trace -> bool.

(** Side effects of the lifecycle methods and handlers. *)
Inductive page_effect :=
| PEffect (e : effect)
| PFetchTrace (id : string)
| PHistoryReplace (id : string)
| PScrollSetTrace (t : option Trace)
| PClearSearch
| PTrackSlimToggle (b : bool).

(** The component instance: React state plus the instance field
    [traceDagEV]. *)
Record Inst := mkInst {
  i_state : TState Trace;
  i_traceDagEV : option TEv
}.

(** The props read by the lifecycle methods: [id], [trace], [params.spanId]. *)
Record LProps := mkLProps {
  lp_id : string;
  lp_props : TProps Trace
}.

Definition set_headerHeight (st : TState Trace) (h : option Q) : TState Trace :=
  mkTState h (slimView st) (viewType st) (viewRange st)
    (currentRepresentation st) (transformedTrace st) (subtrace st).

Definition set_slimView (st : TState Trace) (b : bool) : TState Trace :=
  mkTState (headerHeight st) b (viewType st) (viewRange st)
    (currentRepresentation st) (transformedTrace st) (subtrace st).

Definition set_viewType (st : TState Trace) (v : ETraceViewType) : TState Trace :=
  mkTState (headerHeight st) (slimView st) v (viewRange st)
    (currentRepresentation st) (transformedTrace st) (subtrace st).

(** [setHeaderHeight(elm)] (lines 353-362); [elm] is [null] or an element,
    given by its [clientHeight]. *)
Definition setHeaderHeight (st : TState Trace) (elm : option Q) : TState Trace :=
  match elm with
  | Some clientHeight =>
      match headerHeight st with
      | Some h => if Qeq_bool h clientHeight then st else set_headerHeight st (Some clientHeight)
      | None => set_headerHeight st (Some clientHeight)
      end
  | None => if truthy_num (headerHeight st) then set_headerHeight st None else st
  end.

(** [toggleSlimView()] (lines 394-398). *)
Definition toggleSlimView (st : TState Trace) : TState Trace * list page_effect :=
  (set_slimView st (negb (slimView st)), [PTrackSlimToggle (negb (slimView st))]).

(** [setTraceView(viewType)] (lines 400-405). *)
Definition setTraceView (inst : Inst) (props : TProps Trace) (vt : ETraceViewType) : Inst :=
  let dag :=
    match p_trace props with
    | Some t =>
        match ft_data t with
        | Some d => if view_eqb vt TraceGraph then Some (calculateTraceDagEV d)
                    else i_traceDagEV inst
        | None => i_traceDagEV inst
        end
    | None => i_traceDagEV inst
    end in
  mkInst (set_viewType (i_state inst) vt) dag.

(** [ensureTraceFetched()] (lines 435-445). *)
Definition ensureTraceFetched (lp : LProps) : list page_effect :=
  match p_trace (lp_props lp) with
  | None => [PFetchTrace (lp_id lp)]
  | Some _ =>
      if truthy_str (Some (lp_id lp)) &&
         negb (bool_decide (lp_id lp = toLowerCase (lp_id lp)))
      then [PHistoryReplace (toLowerCase (lp_id lp))]
      else []
  end.

(** [prevTrace.data !== trace.data]. *)
Definition data_changed (a b : option Trace) : bool :=
  match a, b with
  | Some x, Some y => negb (same_data x y)
  | None, None => false
  | _, _ => true
  end.

Definition option_string_eqb (a b : option string) : bool :=
  bool_decide (a = b).

(** [config.traceRepresentations?.find(r => r.name === currentRepresentation)]. *)
Definition find_representation (reps : option (list TraceRepresentation)) (name : string)
  : option TraceRepresentation :=
  match reps with
  | Some l => List.find (fun r => bool_decide (rep_name r = name)) l
  | None => None
  end.

(** [componentDidUpdate(prevProps)] (lines 262-295); [elm] is the stored
    [_headerElm], [reps] the configured representations. *)
Definition componentDidUpdate (reps : option (list TraceRepresentation)) (elm : option Q)
    (prev cur : LProps) (st : TState Trace) : TState Trace * list page_effect :=
  let props := lp_props cur in
  let currentRep := currentRepresentation st in
  let e0 := [PScrollSetTrace (match p_trace props with Some t => ft_data t | None => None end)] in
  let st1 := setHeaderHeight st elm in
  match p_trace props with
  | None => (st1, e0 ++ ensureTraceFetched cur)
  | Some t =>
      let '(st2, e2) :=
        if match p_trace (lp_props prev) with
           | None => true
           | Some pt => data_changed (ft_data pt) (ft_data t)
           end
        then
          let '(sta, ea) :=
            match find_representation reps currentRep with
            | Some r => setTraceRepresentation run_transform st1 props r
            | None => (st1, [])
            end in
          (createSubtraceIfNeeded createSubtrace sta props, map PEffect ea)
        else (st1, []) in
      let st3 :=
        if negb (option_string_eqb (p_spanId props) (p_spanId (lp_props prev)))
        then createSubtraceIfNeeded createSubtrace st2 props else st2 in
      if negb (bool_decide (lp_id prev = lp_id cur)) then
        let '(st4, e4) := updateViewRangeTime st3 0 1 None in
        (st4, e0 ++ e2 ++ map PEffect e4 ++ [PClearSearch])
      else (st3, e0 ++ e2)
  end.

End PageLifecycle.

Arguments PEffect {Trace}. Arguments PFetchTrace {Trace}. Arguments PHistoryReplace {Trace}.
Arguments PScrollSetTrace {Trace}. Arguments PClearSearch {Trace}.
Arguments PTrackSlimToggle {Trace}.
Arguments mkInst {Trace TEv}. Arguments i_state {Trace TEv}. Arguments i_traceDagEV {Trace TEv}.
Arguments mkLProps {Trace}. Arguments lp_id {Trace}. Arguments lp_props {Trace}.
Arguments set_headerHeight {Trace}. Arguments set_slimView {Trace}.
Arguments set_viewType {Trace}. Arguments setHeaderHeight {Trace}.
Arguments toggleSlimView {Trace}. Arguments setTraceView {Trace TEv}.
Arguments ensureTraceFetched {Trace}. Arguments data_changed {Trace}.
Arguments componentDidUpdate {Trace}.

(* ================================================================== *)
(** * Properties *)

(** ** Boolean comparisons on [Q] *)

Lemma Qle_bool_true_le (x y : Q) : Qle_bool x y = true -> x <= y.
Proof. apply Qle_bool_iff. Qed.

Lemma Qle_bool_false_lt (x y : Q) : Qle_bool x y = false -> y < x.
Proof.
  intros H. apply Qnot_le_lt. intros Hle.
  apply Qle_bool_iff in Hle. congruence.
Qed.

(** Split every [Qle_bool] test of the goal and turn the outcomes into
    order facts for [lra]. *)
Ltac split_qtests :=
  repeat match goal with
  | |- context [Qle_bool ?a ?b] =>
      let E := fresh "E" in
      destruct (Qle_bool a b) eqn:E;
      [apply Qle_bool_true_le in E | apply Qle_bool_false_lt in E]
  | H : context [Qle_bool ?a ?b] |- _ =>
      let E := fresh "E" in
      destruct (Qle_bool a b) eqn:E;
      [apply Qle_bool_true_le in E | apply Qle_bool_false_lt in E]
  end.

(** [x / 2] as a product, which [lra] reads. *)
Ltac halves := unfold Qdiv in *; change (Qinv 2) with (1 # 2) in *.

Ltac solve_q := unfold Qltb, _clamp, VIEW_MIN_RANGE in *; split_qtests; cbn in *; halves; lra.

(** ** The arithmetic of [_adjustViewRange] *)

(** [x + 0] is [x] itself, not only up to [==]. *)
Lemma Qplus_0_r_eq (x : Q) : x + 0 = x.
Proof.
  destruct x as [n d]. unfold Qplus; cbn.
  rewrite Z.mul_1_r, Z.add_0_r, Pos.mul_1_r. reflexivity.
Qed.

(** With both changes zero, a valid range comes back as it is. *)
Lemma adjust_range_zero (s e : Q) :
  0 <= s -> s < e -> e <= 1 -> VIEW_MIN_RANGE <= e - s ->
  adjust_range (s, e) 0 0 = (s, e).
Proof.
  intros H0 Hlt H1 Hw. unfold adjust_range. rewrite !Qplus_0_r_eq.
  unfold Qltb, _clamp, VIEW_MIN_RANGE in *.
  split_qtests; cbn in *; first [reflexivity | exfalso; lra].
Qed.

(** The state-level effect of [_adjustViewRange]: when the committed range
    is a pair, the call succeeds and commits [adjust_range] of it. *)
Lemma adjustViewRange_current {Trace : Type} (st : TState Trace) (s e ds de : Q)
    (src : string) :
  view_current st = Some (JPair s e) ->
  exists st' eff,
    _adjustViewRange st ds de src = Some (st', eff) /\
    view_current st' =
      Some (JPair (fst (adjust_range (s, e) ds de)) (snd (adjust_range (s, e) ds de))).
Proof.
  intros Hcur. unfold _adjustViewRange. rewrite Hcur.
  destruct (adjust_range (s, e) ds de) as [a b] eqn:Hadj.
  eexists _, _. split; [reflexivity |].
  unfold view_current, updateViewRangeTime, set_viewRange; cbn.
  by rewrite lookup_singleton_eq.
Qed.


(** ** Claims on the view-range controller *)


(** C8: from a valid range, any number of [_adjustViewRange(0, 0, 'kbd')]
    calls leave the committed range exactly as it was. *)
Theorem adjust_zero_idempotent {Trace : Type} (st : TState Trace) (s e : Q) :
  view_current st = Some (JPair s e) ->
  0 <= s -> s < e -> e <= 1 -> VIEW_MIN_RANGE <= e - s ->
  forall n, exists st', adjust_times n 0 0 st = Some st' /\
    view_current st' = Some (JPair s e).
Proof.
  intros Hcur H0 Hlt H1 Hw n. induction n as [| n IH]; cbn.
  - exists st. split; [reflexivity | exact Hcur].
  - destruct IH as (st1 & -> & Hcur1).
    destruct (adjustViewRange_current st1 s e 0 0 "kbd"%string Hcur1)
      as (st2 & eff & Hrun & Hcur2).
    rewrite Hrun. exists st2. split; [reflexivity |].
    rewrite Hcur2, adjust_range_zero by assumption. reflexivity.
Qed.

(** ** Claims that the binary64 rounding decides *)

(** C1 fails in the code's arithmetic: the range
    [(0.03245913119424004, 0.06133053627019447)] is valid
    ([0 <= start < end <= 1], width [>= VIEW_MIN_RANGE] as computed), yet
    [zoomInFast] takes the re-centring branch and commits
    [(0.04189483373221726, 0.05189483373221725)], whose width computes to
    [0.009999999999999995 < VIEW_MIN_RANGE]. *)
Theorem zoomInFast_commits_below_min_width :
  PrimFloat.leb 0%float 0.03245913119424004%float = true /\
  PrimFloat.ltb 0.03245913119424004%float 0.06133053627019447%float = true /\
  PrimFloat.leb 0.06133053627019447%float 1%float = true /\
  PrimFloat.leb Binary64.VIEW_MIN_RANGE
    (PrimFloat.sub 0.06133053627019447%float 0.03245913119424004%float) = true /\
  Binary64.adjust_range (0.03245913119424004%float, 0.06133053627019447%float)
    (fst (Binary64.shortcutConfig zoomInFast)) (snd (Binary64.shortcutConfig zoomInFast))
    = (0.04189483373221726%float, 0.05189483373221725%float) /\
  PrimFloat.sub 0.05189483373221725%float 0.04189483373221726%float
    = 0.009999999999999995%float /\
  PrimFloat.ltb (PrimFloat.sub 0.05189483373221725%float 0.04189483373221726%float)
    Binary64.VIEW_MIN_RANGE = true.
Proof. repeat split; vm_compute; reflexivity. Qed.

(** From the tenth press of [zoomInFast] on, starting at [(0, 1)], the
    binary64 range is [(0.4949999999999998, 0.5049999999999998)]. *)
Lemma zoomInFast_binary64_from_ten (k : nat) :
  Binary64.gesture_iter (k + 10) zoomInFast (0%float, 1%float)
    = (0.4949999999999998%float, 0.5049999999999998%float).
Proof.
  induction k as [| k IH]; [vm_compute; reflexivity |].
  change (Binary64.gesture_iter (S k + 10) zoomInFast (0%float, 1%float))
    with (Binary64.adjust_range (Binary64.gesture_iter (k + 10) zoomInFast (0%float, 1%float))
            (fst (Binary64.shortcutConfig zoomInFast)) (snd (Binary64.shortcutConfig zoomInFast))).
  rewrite IH. vm_compute. reflexivity.
Qed.

Lemma zoomInFast_binary64_settled (n : nat) :
  (10 <= n)%nat ->
  Binary64.gesture_iter n zoomInFast (0%float, 1%float)
    = (0.4949999999999998%float, 0.5049999999999998%float).
Proof.
  intros Hn. replace n with ((n - 10) + 10)%nat by lia.
  apply zoomInFast_binary64_from_ten.
Qed.

(** C7, as the claim states it, fails: the presses never settle on the
    window centred at [0.5], [(0.5 - VIEW_MIN_RANGE / 2,
    0.5 + VIEW_MIN_RANGE / 2)] (that is, [(0.495, 0.505)]): from the tenth
    press on the range is [(0.4949999999999998, 0.5049999999999998)]. *)
Lemma zoomInFast_not_centred_counterexample :
  ~ (exists N, forall n, (N <= n)%nat ->
       Binary64.gesture_iter n zoomInFast (0%float, 1%float)
         = (PrimFloat.sub 0.5%float (PrimFloat.div Binary64.VIEW_MIN_RANGE 2%float),
            PrimFloat.add 0.5%float (PrimFloat.div Binary64.VIEW_MIN_RANGE 2%float))).
Proof.
  intros [N HN].
  specialize (HN (N + 10)%nat ltac:(lia)).
  rewrite zoomInFast_binary64_from_ten in HN.
  apply (f_equal (fun p => PrimFloat.eqb (fst p) 0.495%float)) in HN.
  vm_compute in HN. discriminate HN.
Qed.

(** C7 (amended): from [(0, 1)], pressing [zoomInFast] repeatedly reaches
    at the tenth press the window [(0.4949999999999998, 0.5049999999999998)]
    and stays there at every later press; its width computes to
    [0.010000000000000009 >= VIEW_MIN_RANGE] and its centre, computed as
    the code does, to [0.4999999999999998], not [0.5]; [start < end] holds
    after every press. *)
Theorem zoomInFast_settles_binary64 :
  (forall n, (10 <= n)%nat ->
     Binary64.gesture_iter n zoomInFast (0%float, 1%float)
       = (0.4949999999999998%float, 0.5049999999999998%float)) /\
  Binary64.gesture_iter 9 zoomInFast (0%float, 1%float)
    <> (0.4949999999999998%float, 0.5049999999999998%float) /\
  PrimFloat.sub 0.5049999999999998%float 0.4949999999999998%float = 0.010000000000000009%float /\
  PrimFloat.leb Binary64.VIEW_MIN_RANGE
    (PrimFloat.sub 0.5049999999999998%float 0.4949999999999998%float) = true /\
  PrimFloat.add 0.4949999999999998%float
    (PrimFloat.div (PrimFloat.sub 0.5049999999999998%float 0.4949999999999998%float) 2%float)
    = 0.4999999999999998%float /\
  (forall n, PrimFloat.ltb (fst (Binary64.gesture_iter n zoomInFast (0%float, 1%float)))
                           (snd (Binary64.gesture_iter n zoomInFast (0%float, 1%float))) = true).
Proof.
  split; [exact zoomInFast_binary64_settled |].
  split.
  { intros H9. apply (f_equal (fun p => PrimFloat.eqb (fst p) 0.4949999999999998%float)) in H9.
    vm_compute in H9. discriminate H9. }
  split; [vm_compute; reflexivity |].
  split; [vm_compute; reflexivity |].
  split; [vm_compute; reflexivity |].
  intros n. destruct (Nat.lt_ge_cases n 10) as [Hlt | Hge].
  - do 10 (destruct n as [| n]; [vm_compute; reflexivity |]). lia.
  - rewrite zoomInFast_binary64_settled by exact Hge. vm_compute. reflexivity.
Qed.

(** C3, as the claim states it, fails: [updateViewRangeTime] (the explicit
    setter used for drag-to-select and resets) commits [(-1/2, 2)] as it is,
    while clamping would give a start of [0]. *)
Lemma updateViewRangeTime_no_clamp_counterexample :
  view_current (fst (updateViewRangeTime (constructor_state (Trace:=unit) false "Original"%string)
                       (- (1 # 2)) 2 (Some "drag"%string)))
    = Some (JPair (- (1 # 2)) 2) /\
  ~ (- (1 # 2) == _clamp (- (1 # 2)) 0 (99 # 100)).
Proof.
  split.
  - vm_compute. reflexivity.
  - unfold _clamp. vm_compute. discriminate.
Qed.

(** C3 (amended): [updateViewRangeTime(start, end, trackSrc)] replaces the
    [time] object by [{ current: [start, end] }], storing both bounds as
    given (no clamping, no minimum width), leaves the other state fields
    alone, and emits one tracking event [(trackSrc, [start, end], old
    current)] exactly when [trackSrc] is a non-empty string. *)
Theorem updateViewRangeTime_stores_unclamped {Trace : Type} (st : TState Trace)
    (start end_ : Q) (trackSrc : option string) :
  time (viewRange (fst (updateViewRangeTime st start end_ trackSrc)))
    = {[ "current"%string := JPair start end_ ]} /\
  view_current (fst (updateViewRangeTime st start end_ trackSrc)) = Some (JPair start end_) /\
  subtrace (fst (updateViewRangeTime st start end_ trackSrc)) = subtrace st /\
  transformedTrace (fst (updateViewRangeTime st start end_ trackSrc)) = transformedTrace st /\
  currentRepresentation (fst (updateViewRangeTime st start end_ trackSrc))
    = currentRepresentation st /\
  (forall src, trackSrc = Some src -> src <> ""%string ->
     snd (updateViewRangeTime st start end_ trackSrc)
       = [TrackRange src (start, end_) (view_current st)]) /\
  (trackSrc = None \/ trackSrc = Some ""%string ->
     snd (updateViewRangeTime st start end_ trackSrc) = []).
Proof.
  unfold updateViewRangeTime, view_current, set_viewRange; cbn.
  split; [reflexivity |]. split; [by rewrite lookup_singleton_eq |].
  split; [reflexivity |]. split; [reflexivity |]. split; [reflexivity |].
  split.
  - intros src -> Hne. cbn. unfold truthy_str.
    rewrite bool_decide_eq_false_2 by exact Hne. reflexivity.
  - intros [-> | ->]; reflexivity.
Qed.

(** ** Claims on the displayed trace *)

(** C4, as the claim states it, fails: with a non-null sub-trace and a trace
    still [LOADING], [render] shows the loading indicator, not the
    sub-trace. *)
Lemma render_subtrace_not_shown_counterexample :
  subtrace (set_subtrace (constructor_state (Trace:=unit) false "Original"%string) (Some tt))
    = Some tt /\
  render (set_subtrace (constructor_state false "Original"%string) (Some tt))
    (mkTProps (Some (mkFetchedTrace (Some tt) None (Some LOADING))) None) = RLoading.
Proof. split; reflexivity. Qed.

(** C4 (amended): with the trace absent or [LOADING] the loading indicator
    is shown, with the trace in [ERROR] an error message; otherwise the
    page displays the sub-trace if it is non-null, else the transformed
    trace if it is non-null, else [trace.data], and an error message when
    all three are absent. *)
Theorem render_display_precedence {Trace : Type} (st : TState Trace) (props : TProps Trace) :
  (p_trace props = None -> render st props = RLoading) /\
  (forall t, p_trace props = Some t ->
     (state_is (ft_state t) LOADING = true -> render st props = RLoading) /\
     (state_is (ft_state t) LOADING = false -> state_is (ft_state t) ERROR = true ->
        exists msg, render st props = RError msg) /\
     (state_is (ft_state t) LOADING = false -> state_is (ft_state t) ERROR = false ->
        (forall d, subtrace st = Some d -> render st props = RView d) /\
        (forall d, subtrace st = None -> transformedTrace st = Some d ->
           render st props = RView d) /\
        (forall d, subtrace st = None -> transformedTrace st = None -> ft_data t = Some d ->
           render st props = RView d) /\
        (subtrace st = None -> transformedTrace st = None -> ft_data t = None ->
           exists msg, render st props = RError msg))).
Proof.
  unfold render. split; [intros -> ; reflexivity |].
  intros t ->. split; [intros -> ; reflexivity |]. split.
  - intros -> ->.
    destruct (js_or (subtrace st) (js_or (transformedTrace st) (ft_data t))); eexists; reflexivity.
  - intros -> ->. unfold js_or.
    repeat split; intros; repeat match goal with H : _ = _ |- _ => rewrite H; clear H end;
      try reflexivity; eexists; reflexivity.
Qed.

(** C5: once the trace data is loaded, a representation whose transform
    throws leaves the whole state unchanged and logs the error on the
    console; one whose transform returns [o] stores exactly [o] as the
    transformed trace and the representation's name as the current one,
    the other fields untouched. *)
Theorem setTraceRepresentation_all_or_nothing {Trace : Type}
    (run_transform : string -> Trace -> transform_outcome Trace)
    (st : TState Trace) (props : TProps Trace) (t : FetchedTrace Trace) (d : Trace)
    (rep : TraceRepresentation) :
  p_trace props = Some t -> ft_data t = Some d ->
  (forall err, run_transform (rep_transformFunction rep) d = Throws err ->
     setTraceRepresentation run_transform st props rep
       = (st, [ConsoleError "Error applying trace representation:"%string err])) /\
  (forall o, run_transform (rep_transformFunction rep) d = Returns o ->
     exists st',
       setTraceRepresentation run_transform st props rep = (st', []) /\
       transformedTrace st' = o /\ currentRepresentation st' = rep_name rep /\
       subtrace st' = subtrace st /\ viewRange st' = viewRange st /\
       viewType st' = viewType st /\ slimView st' = slimView st /\
       headerHeight st' = headerHeight st).
Proof.
  intros Ht Hd. unfold setTraceRepresentation. rewrite Ht, Hd. split.
  - intros err ->. reflexivity.
  - intros o ->. eexists. split; [reflexivity |]. repeat split.
Qed.

(** C6: with the trace or its data absent, or the [spanId] parameter
    absent or empty, [createSubtraceIfNeeded] sets the sub-trace to
    [null], and [render] then shows the transformed trace or the trace
    data. *)
Theorem createSubtraceIfNeeded_null {Trace : Type}
    (createSubtrace : Trace -> string -> option Trace)
    (st : TState Trace) (props : TProps Trace) :
  p_trace props = None \/ (exists t, p_trace props = Some t /\ ft_data t = None) \/
  p_spanId props = None \/ p_spanId props = Some ""%string ->
  subtrace (createSubtraceIfNeeded createSubtrace st props) = None /\
  (forall d, render (createSubtraceIfNeeded createSubtrace st props) props = RView d ->
     exists t, p_trace props = Some t /\ js_or (transformedTrace st) (ft_data t) = Some d).
Proof.
  intros Hcase.
  assert (Hnull : createSubtraceIfNeeded createSubtrace st props = set_subtrace st None).
  { unfold createSubtraceIfNeeded.
    destruct Hcase as [-> | [(t & -> & ->) | [-> | ->]]]; try reflexivity;
      repeat (case_match; try reflexivity). }
  rewrite Hnull. split; [reflexivity |].
  intros d. unfold render. destruct (p_trace props) as [t |]; [| discriminate].
  cbn. destruct (state_is (ft_state t) LOADING); [discriminate |].
  destruct (js_or (transformedTrace st) (ft_data t)) eqn:Hj; [| discriminate].
  destruct (state_is (ft_state t) ERROR); [discriminate |].
  intros [= <-]. eauto.
Qed.

(** ** Claims on the provisional range update and on [ReferenceLink] *)

(** C9: [updateNextViewRangeTime(update)] stores every field of the update
    as given (no clamping), keeps every field of [time] the update does not
    name (in particular [current] when the update does not carry it), and
    leaves the other state fields untouched. *)
Theorem updateNextViewRangeTime_merge {Trace : Type} (st : TState Trace)
    (update : gmap string jsval) :
  (forall k v, update !! k = Some v ->
     time (viewRange (updateNextViewRangeTime st update)) !! k = Some v) /\
  (forall k, update !! k = None ->
     time (viewRange (updateNextViewRangeTime st update)) !! k = time (viewRange st) !! k) /\
  (update !! "current"%string = None ->
     view_current (updateNextViewRangeTime st update) = view_current st) /\
  headerHeight (updateNextViewRangeTime st update) = headerHeight st /\
  slimView (updateNextViewRangeTime st update) = slimView st /\
  viewType (updateNextViewRangeTime st update) = viewType st /\
  currentRepresentation (updateNextViewRangeTime st update) = currentRepresentation st /\
  transformedTrace (updateNextViewRangeTime st update) = transformedTrace st /\
  subtrace (updateNextViewRangeTime st update) = subtrace st.
Proof.
  unfold updateNextViewRangeTime, set_viewRange, view_current; cbn.
  split; [intros k v Hk; by apply lookup_union_Some_l |].
  split; [intros k Hk; by rewrite lookup_union_r |].
  split; [intros Hk; by rewrite lookup_union_r |].
  repeat split.
Qed.

(** C10: [ReferenceLink] drops the caller's [onClick]: no attribute of the
    rendered anchor holds it.  With [reference.span] the anchor's click
    handler runs [preventDefault()] and then [focusSpan(reference.spanID)];
    without it the anchor links to [getUrl(traceID, spanID)] with
    [target="_blank"] and [rel="noopener noreferrer"] and has no click
    handler. *)
Theorem ReferenceLink_behaviour {Span ReactNode : Type} (getUrl : string -> string -> string)
    (props : ReferenceLinkProps Span ReactNode) :
  (forall k n, ~ In (k, AHandler (HCaller n)) (a_attrs (ReferenceLink getUrl props))) /\
  a_children (ReferenceLink getUrl props) = children props /\
  (forall sp, ref_span (reference props) = Some sp ->
     attr_get (a_attrs (ReferenceLink getUrl props)) "role"%string
       = Some (AStr (Some "button"%string)) /\
     exists h, attr_get (a_attrs (ReferenceLink getUrl props)) "onClick"%string
                 = Some (AHandler h) /\
               run_handler h = [PreventDefault; FocusSpan (ref_spanID (reference props))]) /\
  (ref_span (reference props) = None ->
     attr_get (a_attrs (ReferenceLink getUrl props)) "href"%string
       = Some (AStr (Some (getUrl (ref_traceID (reference props)) (ref_spanID (reference props))))) /\
     attr_get (a_attrs (ReferenceLink getUrl props)) "target"%string
       = Some (AStr (Some "_blank"%string)) /\
     attr_get (a_attrs (ReferenceLink getUrl props)) "rel"%string
       = Some (AStr (Some "noopener noreferrer"%string)) /\
     attr_get (a_attrs (ReferenceLink getUrl props)) "onClick"%string = None).
Proof.
  assert (Hrest : delete_key "onClick"%string (rest_props props) = []).
  { unfold rest_props. destruct (onClick props); reflexivity. }
  unfold ReferenceLink. rewrite Hrest, app_nil_r.
  destruct (ref_span (reference props)) as [sp |]; cbn.
  - split; [intros k n Hin; cbn in Hin; intuition congruence |].
    split; [reflexivity |]. split; [| discriminate].
    intros ? _. split; [reflexivity |]. eexists. split; reflexivity.
  - split; [intros k n Hin; cbn in Hin; intuition congruence |].
    split; [reflexivity |]. split; [discriminate |].
    intros _. repeat split.
Qed.

(* ================================================================== *)
(** * Instances: the hypotheses hold on concrete states *)

(** Decide a comparison between two rational literals. *)
Ltac qlit := vm_compute; first [reflexivity | intros Hq; discriminate Hq].


Lemma adjust_zero_idempotent_witness :
  view_current (constructor_state (Trace:=unit) false "Original"%string) = Some (JPair 0 1) /\
  exists st', adjust_times 3 0 0 (constructor_state (Trace:=unit) false "Original"%string)
                = Some st' /\ view_current st' = Some (JPair 0 1).
Proof.
  split; [reflexivity |].
  apply (adjust_zero_idempotent (constructor_state (Trace:=unit) false "Original"%string) 0 1);
    [reflexivity | qlit ..].
Defined.

Lemma setTraceRepresentation_all_or_nothing_witness :
  p_trace (mkTProps (Some (mkFetchedTrace (Some tt) None (Some DONE))) None)
    = Some (mkFetchedTrace (Some tt) None (Some DONE)) /\
  ft_data (mkFetchedTrace (Some tt) None (Some DONE)) = Some tt /\
  (forall err, (fun _ _ => @Throws unit "bad transform"%string) "trace => trace.spans"%string tt
                 = Throws err ->
     setTraceRepresentation (fun _ _ => @Throws unit "bad transform"%string)
       (constructor_state false "Original"%string)
       (mkTProps (Some (mkFetchedTrace (Some tt) None (Some DONE))) None)
       (mkTraceRepresentation "Spans"%string "trace => trace.spans"%string)
     = (constructor_state false "Original"%string,
        [ConsoleError "Error applying trace representation:"%string err])) /\
  (forall o, (fun _ _ => @Throws unit "bad transform"%string) "trace => trace.spans"%string tt
               = @Returns unit o ->
     exists st',
       setTraceRepresentation (fun _ _ => @Throws unit "bad transform"%string)
         (constructor_state false "Original"%string)
         (mkTProps (Some (mkFetchedTrace (Some tt) None (Some DONE))) None)
         (mkTraceRepresentation "Spans"%string "trace => trace.spans"%string) = (st', []) /\
       transformedTrace st' = o /\ currentRepresentation st' = "Spans"%string /\
       subtrace st' = subtrace (constructor_state (Trace:=unit) false "Original"%string) /\
       viewRange st' = viewRange (constructor_state (Trace:=unit) false "Original"%string) /\
       viewType st' = viewType (constructor_state (Trace:=unit) false "Original"%string) /\
       slimView st' = slimView (constructor_state (Trace:=unit) false "Original"%string) /\
       headerHeight st' = headerHeight (constructor_state (Trace:=unit) false "Original"%string)).
Proof.
  split; [reflexivity |]. split; [reflexivity |].
  apply (setTraceRepresentation_all_or_nothing (fun _ _ => @Throws unit "bad transform"%string)
           (constructor_state false "Original"%string)
           (mkTProps (Some (mkFetchedTrace (Some tt) None (Some DONE))) None)
           (mkFetchedTrace (Some tt) None (Some DONE)) tt
           (mkTraceRepresentation "Spans"%string "trace => trace.spans"%string));
    reflexivity.
Defined.

Lemma createSubtraceIfNeeded_null_witness :
  (p_trace (mkTProps (Trace:=unit) None (Some "abc"%string)) = None \/
   (exists t, p_trace (mkTProps (Trace:=unit) None (Some "abc"%string)) = Some t /\
              ft_data t = None) \/
   p_spanId (mkTProps (Trace:=unit) None (Some "abc"%string)) = None \/
   p_spanId (mkTProps (Trace:=unit) None (Some "abc"%string)) = Some ""%string) /\
  subtrace (createSubtraceIfNeeded (fun d _ => Some d)
              (constructor_state false "Original"%string)
              (mkTProps (Trace:=unit) None (Some "abc"%string))) = None /\
  (forall d, render (createSubtraceIfNeeded (fun d _ => Some d)
                       (constructor_state false "Original"%string)
                       (mkTProps (Trace:=unit) None (Some "abc"%string)))
               (mkTProps None (Some "abc"%string)) = RView d ->
     exists t, p_trace (mkTProps (Trace:=unit) None (Some "abc"%string)) = Some t /\
       js_or (transformedTrace (constructor_state (Trace:=unit) false "Original"%string))
         (ft_data t) = Some d).
Proof.
  split; [left; reflexivity |].
  apply (createSubtraceIfNeeded_null (fun d _ => Some d)
           (constructor_state false "Original"%string)
           (mkTProps (Trace:=unit) None (Some "abc"%string))).
  left. reflexivity.
Defined.

(* ================================================================== *)
(** * Further properties of the page *)

(** ** Keyboard gestures *)

(** Panning never moves a bound against the direction of the pan: the
    left pans move neither bound right, the right pans neither bound
    left (from a valid range). *)
Theorem pan_moves_bounds_one_way (s e : Q) (g : shortcut) :
  0 <= s -> s < e -> e <= 1 -> VIEW_MIN_RANGE <= e - s ->
  ((g = panLeft \/ g = panLeftFast) ->
     fst (adjust_range (s, e) (fst (shortcutConfig g)) (snd (shortcutConfig g))) <= s /\
     snd (adjust_range (s, e) (fst (shortcutConfig g)) (snd (shortcutConfig g))) <= e) /\
  ((g = panRight \/ g = panRightFast) ->
     s <= fst (adjust_range (s, e) (fst (shortcutConfig g)) (snd (shortcutConfig g))) /\
     e <= snd (adjust_range (s, e) (fst (shortcutConfig g)) (snd (shortcutConfig g)))).
Proof.
  intros H0 Hlt H1 Hw.
  split; intros Hg; destruct Hg as [-> | ->];
    cbn [shortcutConfig fst snd]; unfold adjust_range, VIEW_CHANGE_BASE, VIEW_CHANGE_FAST;
    unfold Qltb, _clamp, VIEW_MIN_RANGE in *;
    split_qtests; cbn in *; halves; split; lra.
Qed.

(** ** Handlers of the page *)

(** Calling [setHeaderHeight] a second time with the same element changes
    nothing. *)
Theorem setHeaderHeight_idempotent {Trace : Type} (st : TState Trace) (elm : option Q) :
  setHeaderHeight (setHeaderHeight st elm) elm = setHeaderHeight st elm.
Proof.
  unfold setHeaderHeight.
  destruct elm as [h |].
  - destruct (headerHeight st) as [h0 |] eqn:Hh.
    + destruct (Qeq_bool h0 h) eqn:Hq.
      * rewrite Hh, Hq. reflexivity.
      * cbn. replace (Qeq_bool h h) with true by (symmetry; apply Qeq_bool_iff; reflexivity).
        reflexivity.
    + cbn. replace (Qeq_bool h h) with true by (symmetry; apply Qeq_bool_iff; reflexivity).
      reflexivity.
  - destruct (truthy_num (headerHeight st)) eqn:Ht.
    + reflexivity.
    + rewrite Ht. reflexivity.
Qed.

(** Toggling the slim header twice restores the state, and reports the two
    new values, [!slimView] then [slimView], to tracking. *)
Theorem toggleSlimView_twice {Trace : Type} (st : TState Trace) :
  fst (toggleSlimView (fst (toggleSlimView st))) = st /\
  snd (toggleSlimView st) ++ snd (toggleSlimView (fst (toggleSlimView st)))
    = [PTrackSlimToggle (negb (slimView st)); PTrackSlimToggle (slimView st)].
Proof.
  destruct st as [hh sv vt vr cr tt sub]; cbn.
  rewrite negb_involutive. split; reflexivity.
Qed.

(** ** [componentDidUpdate] *)

Lemma setTraceRepresentation_only_logs {Trace : Type}
    (run_transform : string -> Trace -> transform_outcome Trace)
    (st : TState Trace) (props : TProps Trace) (r : TraceRepresentation) :
  Forall (fun e => exists m err, e = ConsoleError m err)
    (snd (setTraceRepresentation run_transform st props r)).
Proof.
  unfold setTraceRepresentation.
  repeat case_match; cbn; repeat constructor; eauto.
Qed.

Lemma createSubtraceIfNeeded_fields {Trace : Type} (cs : Trace -> string -> option Trace)
    (st : TState Trace) (props : TProps Trace) :
  transformedTrace (createSubtraceIfNeeded cs st props) = transformedTrace st /\
  currentRepresentation (createSubtraceIfNeeded cs st props) = currentRepresentation st /\
  viewRange (createSubtraceIfNeeded cs st props) = viewRange st.
Proof. unfold createSubtraceIfNeeded. repeat case_match; repeat split. Qed.

(** When the trace id changes (trace present), [componentDidUpdate] resets
    the committed range to [(0, 1)] without a tracking event, and its last
    effect is clearing the search. *)
Theorem componentDidUpdate_new_id_resets_range {Trace : Type}
    (cs : Trace -> string -> option Trace)
    (run : string -> Trace -> transform_outcome Trace) (same : Trace -> Trace -> bool)
    (reps : option (list TraceRepresentation)) (elm : option Q)
    (prev cur : LProps Trace) (st : TState Trace) (t : FetchedTrace Trace) :
  p_trace (lp_props cur) = Some t -> lp_id prev <> lp_id cur ->
  view_current (fst (componentDidUpdate cs run same reps elm prev cur st)) = Some (JPair 0 1) /\
  (exists pre, snd (componentDidUpdate cs run same reps elm prev cur st) = pre ++ [PClearSearch]) /\
  (forall src r o,
     ~ In (PEffect (TrackRange src r o)) (snd (componentDidUpdate cs run same reps elm prev cur st))).
Proof.
  intros Ht Hid. unfold componentDidUpdate. rewrite Ht.
  rewrite bool_decide_eq_false_2 by exact Hid.
  match goal with |- context [let '(_, _) := ?X in _] => destruct X as [st2 e2] eqn:HX end.
  cbn -[createSubtraceIfNeeded].
  split; [unfold view_current, set_viewRange; cbn; by rewrite lookup_singleton_eq |].
  split.
  - eexists (_ :: e2). reflexivity.
  - intros src r o Hin. rewrite !in_app_iff in Hin.
    destruct Hin as [Hin | [Hin | [Hin | Hin]]]; cbn in Hin;
      try (intuition discriminate).
    revert HX. case_match.
    + match goal with |- context [let '(_, _) := ?Y in _] => destruct Y as [sta ea] eqn:HY end.
      intros [= _ <-].
      assert (Hf : Forall (fun e => exists m err, e = ConsoleError m err) ea).
      { case_match.
        - pose proof (setTraceRepresentation_only_logs run (setHeaderHeight st elm)
                        (lp_props cur) t0) as Hl.
          rewrite HY in Hl. exact Hl.
        - injection HY as _ <-. constructor. }
      apply in_map_iff in Hin as (e & He & Hine).
      injection He as ->.
      rewrite List.Forall_forall in Hf. destruct (Hf _ Hine) as (m & err & Hm). discriminate.
    + intros [= _ <-]. exact Hin.
Qed.

(** [createSubtraceIfNeeded] only writes [subtrace]. *)
Lemma createSubtraceIfNeeded_transformed {Trace : Type} (cs : Trace -> string -> option Trace)
    (st : TState Trace) (props : TProps Trace) :
  transformedTrace (createSubtraceIfNeeded cs st props) = transformedTrace st.
Proof. apply createSubtraceIfNeeded_fields. Qed.

Lemma createSubtraceIfNeeded_currentRepresentation {Trace : Type}
    (cs : Trace -> string -> option Trace) (st : TState Trace) (props : TProps Trace) :
  currentRepresentation (createSubtraceIfNeeded cs st props) = currentRepresentation st.
Proof. apply createSubtraceIfNeeded_fields. Qed.

(** Split the remaining branch tests of [componentDidUpdate]. *)
Ltac didUpdate_branches :=
  repeat match goal with
  | |- context [if ?b then _ else _] =>
      lazymatch b with
      | context [createSubtraceIfNeeded] => fail
      | _ => destruct b
      end
  end;
  cbn -[createSubtraceIfNeeded setHeaderHeight];
  rewrite ?createSubtraceIfNeeded_transformed, ?createSubtraceIfNeeded_currentRepresentation.

(** On the first load of a trace (the previous props had no trace, or the
    trace still loading, without data), a page constructed
    with configured representations applies the first of them: its
    output becomes the transformed trace and its name the current
    representation. *)
Theorem first_load_applies_default_representation {Trace : Type}
    (cs : Trace -> string -> option Trace)
    (run : string -> Trace -> transform_outcome Trace) (same : Trace -> Trace -> bool)
    (r : TraceRepresentation) (rs : list TraceRepresentation) (slim : bool) (elm : option Q)
    (prev cur : LProps Trace) (t : FetchedTrace Trace) (d : Trace) (o : option Trace) :
  match p_trace (lp_props prev) with Some pt => ft_data pt = None | None => True end ->
  p_trace (lp_props cur) = Some t -> ft_data t = Some d ->
  run (rep_transformFunction r) d = Returns o ->
  transformedTrace (fst (componentDidUpdate cs run same (Some (r :: rs)) elm prev cur
     (constructor_state slim (defaultRepresentation (Some (r :: rs)))))) = o /\
  currentRepresentation (fst (componentDidUpdate cs run same (Some (r :: rs)) elm prev cur
     (constructor_state slim (defaultRepresentation (Some (r :: rs)))))) = rep_name r.
Proof.
  intros Hprev Ht Hd Hrun. unfold componentDidUpdate. rewrite Ht.
  destruct (p_trace (lp_props prev)) as [pt |] eqn:Hp.
  - cbn iota in Hprev. rewrite Hprev, Hd. cbn [data_changed].
    cbn [defaultRepresentation constructor_state currentRepresentation find_representation
         List.find].
    rewrite bool_decide_eq_true_2 by reflexivity.
    unfold setTraceRepresentation. rewrite !Ht, !Hd, !Hrun.
    split; didUpdate_branches; reflexivity.
  - cbn [defaultRepresentation constructor_state currentRepresentation find_representation
         List.find].
    rewrite bool_decide_eq_true_2 by reflexivity.
    unfold setTraceRepresentation. rewrite !Ht, !Hd, !Hrun.
    split; didUpdate_branches; reflexivity.
Qed.

(** When the current representation name is not among the configured
    ones (e.g. the default ['Original'] with none configured),
    [componentDidUpdate] never touches the transformed trace or the
    representation name, also when the trace data changes. *)
Theorem unconfigured_representation_keeps_transformed {Trace : Type}
    (cs : Trace -> string -> option Trace)
    (run : string -> Trace -> transform_outcome Trace) (same : Trace -> Trace -> bool)
    (reps : option (list TraceRepresentation)) (elm : option Q)
    (prev cur : LProps Trace) (st : TState Trace) :
  find_representation reps (currentRepresentation st) = None ->
  transformedTrace (fst (componentDidUpdate cs run same reps elm prev cur st))
    = transformedTrace st /\
  currentRepresentation (fst (componentDidUpdate cs run same reps elm prev cur st))
    = currentRepresentation st.
Proof.
  intros Hf. unfold componentDidUpdate. rewrite Hf.
  destruct (p_trace (lp_props cur)) as [t |].
  - split; didUpdate_branches; destruct elm as [h|]; cbn;
      repeat case_match; reflexivity.
  - cbn. destruct elm as [h|]; cbn; repeat case_match; split; reflexivity.
Qed.

(** When the [spanId] parameter changes and the trace data is loaded,
    [componentDidUpdate] leaves [createSubtrace(data, spanId)] as the
    sub-trace for a non-empty id, and [null] when the parameter is gone. *)
Theorem spanId_change_recomputes_subtrace {Trace : Type}
    (cs : Trace -> string -> option Trace)
    (run : string -> Trace -> transform_outcome Trace) (same : Trace -> Trace -> bool)
    (reps : option (list TraceRepresentation)) (elm : option Q)
    (prev cur : LProps Trace) (st : TState Trace) (t : FetchedTrace Trace) (d : Trace) :
  p_trace (lp_props cur) = Some t -> ft_data t = Some d ->
  p_spanId (lp_props cur) <> p_spanId (lp_props prev) ->
  (forall sid, p_spanId (lp_props cur) = Some sid -> sid <> ""%string ->
     subtrace (fst (componentDidUpdate cs run same reps elm prev cur st)) = cs d sid) /\
  (p_spanId (lp_props cur) = None ->
     subtrace (fst (componentDidUpdate cs run same reps elm prev cur st)) = None).
Proof.
  intros Ht Hd Hs. unfold componentDidUpdate. rewrite Ht.
  match goal with |- context [let '(_, _) := ?X in _] => destruct X as [st2 e2] end.
  unfold option_string_eqb.
  rewrite (bool_decide_eq_false_2 (p_spanId (lp_props cur) = p_spanId (lp_props prev))) by exact Hs.
  cbn [negb].
  assert (Hsub : forall s, subtrace (createSubtraceIfNeeded cs s (lp_props cur))
                 = match p_spanId (lp_props cur) with
                   | Some sid => if truthy_str (Some sid) then cs d sid else None
                   | None => None
                   end).
  { intros s. unfold createSubtraceIfNeeded. rewrite Ht, Hd.
    destruct (p_spanId (lp_props cur)); [case_match |]; reflexivity. }
  split.
  - intros sid Hsid Hne.
    destruct (negb (bool_decide (lp_id prev = lp_id cur))); cbn -[createSubtraceIfNeeded];
      rewrite Hsub, Hsid; cbn; rewrite bool_decide_eq_false_2 by exact Hne; reflexivity.
  - intros Hsid.
    destruct (negb (bool_decide (lp_id prev = lp_id cur))); cbn -[createSubtraceIfNeeded];
      rewrite Hsub, Hsid; reflexivity.
Qed.

(* ================================================================== *)
(** * Instances of the further properties *)

Lemma pan_moves_bounds_one_way_witness :
  0 <= 1 # 4 /\ 1 # 4 < 1 # 2 /\ 1 # 2 <= 1 /\ VIEW_MIN_RANGE <= (1 # 2) - (1 # 4) /\
  fst (adjust_range (1 # 4, 1 # 2) (fst (shortcutConfig panLeft)) (snd (shortcutConfig panLeft)))
    <= 1 # 4 /\
  snd (adjust_range (1 # 4, 1 # 2) (fst (shortcutConfig panLeft)) (snd (shortcutConfig panLeft)))
    <= 1 # 2.
Proof.
  do 4 (split; [qlit |]).
  refine (proj1 (pan_moves_bounds_one_way (1 # 4) (1 # 2) panLeft _ _ _ _) _);
    first [qlit | left; reflexivity].
Defined.

Lemma componentDidUpdate_new_id_resets_range_witness :
  let t := mkFetchedTrace (Some tt) None (Some DONE) in
  let prev := mkLProps "abc"%string (mkTProps (Some t) None) in
  let cur := mkLProps "def"%string (mkTProps (Some t) None) in
  let st := constructor_state (Trace:=unit) false "Original"%string in
  let c := componentDidUpdate (fun d _ => Some d) (fun _ d => Returns (Some d))
             (fun _ _ => true) None (Some 30) prev cur st in
  p_trace (lp_props cur) = Some t /\ lp_id prev <> lp_id cur /\
  view_current (fst c) = Some (JPair 0 1) /\
  (exists pre, snd c = pre ++ [PClearSearch]) /\
  (forall src r o, ~ In (PEffect (TrackRange src r o)) (snd c)).
Proof.
  cbv zeta. split; [reflexivity |]. split; [discriminate |].
  apply (componentDidUpdate_new_id_resets_range _ _ _ _ _ _ _ _
           (mkFetchedTrace (Some tt) None (Some DONE))); [reflexivity | discriminate].
Defined.

Lemma first_load_applies_default_representation_witness :
  let t := mkFetchedTrace (Some tt) None (Some DONE) in
  let r := mkTraceRepresentation "Spans"%string "trace => trace.spans"%string in
  let run := fun (_ : string) (d : unit) => Returns (Some d) in
  let prev := mkLProps "abc"%string (mkTProps (Some (mkFetchedTrace None None (Some LOADING))) None) in
  let cur := mkLProps "abc"%string (mkTProps (Some t) None) in
  let c := componentDidUpdate (fun d _ => Some d) run (fun _ _ => true) (Some [r]) (Some 30)
             prev cur (constructor_state false (defaultRepresentation (Some [r]))) in
  match p_trace (lp_props prev) with Some pt => ft_data pt = None | None => True end /\
  p_trace (lp_props cur) = Some t /\ ft_data t = Some tt /\
  run (rep_transformFunction r) tt = Returns (Some tt) /\
  transformedTrace (fst c) = Some tt /\ currentRepresentation (fst c) = rep_name r.
Proof.
  cbv zeta. do 4 (split; [reflexivity |]).
  apply (first_load_applies_default_representation _ _ _ _ _ _ _ _ _
           (mkFetchedTrace (Some tt) None (Some DONE)) tt); reflexivity.
Defined.

Lemma unconfigured_representation_keeps_transformed_witness :
  let t := mkFetchedTrace (Some tt) None (Some DONE) in
  let prev := mkLProps "abc"%string (mkTProps None None) in
  let cur := mkLProps "abc"%string (mkTProps (Some t) None) in
  let st := constructor_state (Trace:=unit) false "Original"%string in
  let c := componentDidUpdate (fun d _ => Some d) (fun _ d => Returns (Some d))
             (fun _ _ => true) None (Some 30) prev cur st in
  find_representation None (currentRepresentation st) = None /\
  transformedTrace (fst c) = transformedTrace st /\
  currentRepresentation (fst c) = currentRepresentation st.
Proof.
  cbv zeta. split; [reflexivity |].
  apply unconfigured_representation_keeps_transformed. reflexivity.
Defined.

Lemma spanId_change_recomputes_subtrace_witness :
  let t := mkFetchedTrace (Some tt) None (Some DONE) in
  let prev := mkLProps "abc"%string (mkTProps (Some t) None) in
  let cur := mkLProps "abc"%string (mkTProps (Some t) (Some "s1"%string)) in
  let st := constructor_state (Trace:=unit) false "Original"%string in
  let cs := fun (d : unit) (_ : string) => Some d in
  let c := componentDidUpdate cs (fun _ d => Returns (Some d))
             (fun _ _ => true) None (Some 30) prev cur st in
  p_trace (lp_props cur) = Some t /\ ft_data t = Some tt /\
  p_spanId (lp_props cur) <> p_spanId (lp_props prev) /\
  (forall sid, p_spanId (lp_props cur) = Some sid -> sid <> ""%string ->
     subtrace (fst c) = cs tt sid) /\
  (p_spanId (lp_props cur) = None -> subtrace (fst c) = None).
Proof.
  cbv zeta. split; [reflexivity |]. split; [reflexivity |]. split; [discriminate |].
  apply (spanId_change_recomputes_subtrace (fun (d : unit) (_ : string) => Some d) _ _ _ _ _ _ _
           (mkFetchedTrace (Some tt) None (Some DONE)) tt); [reflexivity | reflexivity | discriminate].
Defined.

